(** * A shallow embedding of [pkg/provider/aws/client.go]

    The package wraps three AWS SDK service clients (IAM, STS, S3) behind one
    facade, [AwsClient], built by two constructors, [NewAwsClient] and
    [NewAwsClientWithInput].  Everything outside the package (the Go standard
    library's [filepath.Abs] and [os.Getwd], the SDK's session construction,
    its credential chain and the service clients) is an oracle, collected in
    the record [Env].  The calls the constructors make on the SDK are
    recorded in an event log, the way a test observes them through a mock. *)

From Stdlib Require Import String Ascii List Bool Lia.
Import ListNotations.
Open Scope string_scope.

(* ------------------------------------------------------------------------ *)
(** ** Go errors *)

(** The error values that flow through the package.
    - [AwsError code msg] is a value implementing the SDK's [awserr.Error]
      interface (methods [Code], [Message] and [OrigErr]);
    - [GoError msg] is any other error, e.g. from [errors.New] or the OS;
    - [Wrapped cause msg] is what [github.com/pkg/errors.Wrap] returns
      (a [withStack] around a [withMessage]); it has no [Code()] method. *)
Inductive error : Type :=
| AwsError (code message : string)
| GoError (msg : string)
| Wrapped (cause : error) (msg : string).

(** The type assertion [err.(awserr.Error)] on a (possibly nil) [error]
    value: [ok] holds only for a non-nil value whose dynamic type implements
    the interface.  The result is the asserted value's [Code()]. *)
Definition assert_awserr (err : option error) : option string :=
  match err with
  | Some (AwsError code _) => Some code
  | _ => None
  end.

(** [errors.Wrap(err, msg)]; [Wrap] returns nil on a nil [err]. *)
Definition errors_Wrap (err : option error) (msg : string) : option error :=
  match err with
  | Some e => Some (Wrapped e msg)
  | None => None
  end.

(* ------------------------------------------------------------------------ *)
(** ** [path/filepath] on a Unix host *)

Module FilePath.

(** [filepath.IsAbs]: a Unix path is absolute when it starts with '/'. *)
Definition IsAbs (p : string) : bool :=
  match p with
  | String c _ => Ascii.eqb c "/"%char
  | EmptyString => false
  end.

(** The '/'-separated elements of a path (empty elements included). *)
Fixpoint split_slash (p : string) : list string :=
  match p with
  | EmptyString => [""]
  | String c rest =>
      if Ascii.eqb c "/"%char then "" :: split_slash rest
      else match split_slash rest with
           | seg :: segs => String c seg :: segs
           | [] => [String c EmptyString]
           end
  end.

Fixpoint join_slash (segs : list string) : string :=
  match segs with
  | [] => ""
  | [s] => s
  | s :: rest => s ++ "/" ++ join_slash rest
  end.

(** The lexical processing of [filepath.Clean], on a stack of kept elements
    (most recent first): empty and "." elements vanish, ".." removes the
    previous element, is dropped at the root of a rooted path, and is kept
    at the front of a relative one. *)
Fixpoint clean_segs (rooted : bool) (stack : list string) (segs : list string)
  : list string :=
  match segs with
  | [] => rev stack
  | s :: rest =>
      if String.eqb s "" || String.eqb s "." then clean_segs rooted stack rest
      else if String.eqb s ".." then
        match stack with
        | top :: stack' =>
            if String.eqb top ".." then clean_segs rooted (s :: stack) rest
            else clean_segs rooted stack' rest
        | [] =>
            if rooted then clean_segs rooted [] rest
            else clean_segs rooted [s] rest
        end
      else clean_segs rooted (s :: stack) rest
  end.

(** [filepath.Clean]. *)
Definition Clean (p : string) : string :=
  if String.eqb p "" then "."
  else
    let rooted := IsAbs p in
    let segs := clean_segs rooted [] (split_slash p) in
    if rooted then "/" ++ join_slash segs
    else match segs with
         | [] => "."
         | _ => join_slash segs
         end.

(** [filepath.Join(a, b)]: the non-empty elements joined by '/' and cleaned;
    the empty string when both are empty. *)
Definition Join (a b : string) : string :=
  if String.eqb a "" then (if String.eqb b "" then "" else Clean b)
  else if String.eqb b "" then Clean a
  else Clean (a ++ "/" ++ b).

(** [filepath.Abs] on Unix ([unixAbs]): an absolute path is cleaned, a
    relative one is joined to the working directory, whose lookup
    ([os.Getwd], passed in as [getwd]) may fail. *)
Definition Abs (getwd : string + error) (path : string) : string + error :=
  if IsAbs path then inl (Clean path)
  else match getwd with
       | inr err => inr err
       | inl wd => inl (Join wd path)
       end.

End FilePath.

(* ------------------------------------------------------------------------ *)
(** ** SDK values *)

(** The SDK's request and response structures ([sts.AssumeRoleInput], ...)
    are never inspected by the package; they are modelled as field lists.
    A Go pointer to one of them may be nil, hence the [option]. *)
Definition sdk_struct := list (string * string).

(** A method of an SDK service interface, taking a pointer to its input
    structure and returning a pointer to its output structure and an error. *)
Definition sdk_call := option sdk_struct -> option sdk_struct * option error.

(** [stsiface.STSAPI], restricted to the methods the facade uses. *)
Record STSAPI := {
  sts_AssumeRole : sdk_call;
  sts_GetCallerIdentity : sdk_call;
  sts_GetFederationToken : sdk_call
}.

(** [s3iface.S3API], restricted to the methods the facade uses. *)
Record S3API := {
  s3_ListBuckets : sdk_call;
  s3_DeleteBucket : sdk_call;
  s3_ListObjects : sdk_call;
  s3_DeleteObjects : sdk_call
}.

(** [iamiface.IAMAPI], restricted to the methods the facade uses. *)
Record IAMAPI := {
  iam_CreateAccessKey : sdk_call;
  iam_DeleteAccessKey : sdk_call;
  iam_ListAccessKeys : sdk_call;
  iam_GetUser : sdk_call;
  iam_CreateUser : sdk_call;
  iam_ListUsers : sdk_call;
  iam_AttachUserPolicy : sdk_call
}.

(** [credentials.NewStaticCredentials(id, secret, token)]. *)
Record StaticCredentials := {
  static_id : string;
  static_secret : string;
  static_token : string
}.

(** [aws.Config], restricted to the fields the package sets; a nil pointer
    field is [None]. *)
Record Config := {
  Credentials : option StaticCredentials;
  Region : option string
}.

(** [session.Options], restricted to the fields the package sets; a nil
    [SharedConfigFiles] slice is the empty list. *)
Record Options := {
  opt_Config : Config;
  opt_Profile : string;
  SharedConfigFiles : list string
}.

(** An SDK session ([*session.Session]) is an opaque handle. *)
Definition Session := nat.

(** The world outside the package, as seen by [client.go]. *)
Record Env := {
  Getwd : string + error;                              (* os.Getwd *)
  NewSessionWithOptions : Options -> Session + error;  (* session.NewSessionWithOptions *)
  NewSession : Config -> Session + error;              (* session.NewSession *)
  Credentials_Get : Session -> option error;           (* Credentials.Get *)
  iam_New : Session -> IAMAPI;                         (* iam.New *)
  sts_New : Session -> STSAPI;                         (* sts.New *)
  s3_New : Session -> S3API                            (* s3.New *)
}.

(** The calls of the constructors into the outside world, in order. *)
Inductive event : Type :=
| EvAbs (path : string)
| EvNewSessionWithOptions (opt : Options)
| EvCredentialsGet (sess : Session)
| EvNewSession (cfg : Config).

(* ------------------------------------------------------------------------ *)
(** ** The facade *)

(** [type AwsClient struct]: each field is an interface value, nil as
    [None]. *)
Record AwsClient := {
  iamClient : option IAMAPI;
  stsClient : option STSAPI;
  s3Client : option S3API
}.

(** How a constructor ends: it returns a [(Client, error)] pair (a nil
    interface as [None]), or it panics with a value. *)
Inductive ctor_outcome : Type :=
| Returned (client : option AwsClient) (err : option error)
| Panicked (value : error).

(** The constructors' effects: a log of the outside calls, and an early
    exit ([return] or [panic]) that skips the rest of the body. *)
Definition M (A : Type) := list event -> (A + ctor_outcome) * list event.

Definition ret {A} (a : A) : M A := fun log => (inl a, log).

Definition bind {A B} (m : M A) (k : A -> M B) : M B :=
  fun log => match m log with
             | (inl a, log') => k a log'
             | (inr o, log') => (inr o, log')
             end.

(** Leave the function with outcome [o] ([return] or [panic]). *)
Definition exit {A} (o : ctor_outcome) : M A := fun log => (inr o, log).

(** Make an outside call, recording it. *)
Definition call {A} (ev : event) (result : A) : M A :=
  fun log => (inl result, (log ++ [ev])%list).

Notation "x <- m ;; k" := (bind m (fun x => k))
  (at level 61, m at next level, right associativity).

(** Run a constructor body to its outcome and the log of its calls. *)
Definition run (m : M ctor_outcome) : ctor_outcome * list event :=
  match m [] with
  | (inl o, log) => (o, log)
  | (inr o, log) => (o, log)
  end.

(** [session.Must]: panics with the error of a failed construction. *)
Definition session_Must (r : Session + error) : M Session :=
  match r with
  | inl s => ret s
  | inr err => exit (Panicked err)
  end.

(** The [opt] literal of lines 62-67. *)
Definition base_options (profile region : string) : Options :=
  {| opt_Config := {| Credentials := None; Region := Some region |};
     opt_Profile := profile;
     SharedConfigFiles := [] |}.

(** [opt.SharedConfigFiles = files]. *)
Definition set_SharedConfigFiles (opt : Options) (files : list string) : Options :=
  {| opt_Config := opt_Config opt; opt_Profile := opt_Profile opt;
     SharedConfigFiles := files |}.

(** The [&AwsClient{...}] literal built from a session. *)
Definition client_of_session (env : Env) (sess : Session) : AwsClient :=
  {| iamClient := Some (iam_New env sess);
     stsClient := Some (sts_New env sess);
     s3Client := Some (s3_New env sess) |}.

(** [NewAwsClient(profile, region, configFile)], lines 61-95. *)
Definition NewAwsClient_body (env : Env) (profile region configFile : string)
  : M ctor_outcome :=
  opt <- (if negb (String.eqb configFile "") then
            absr <- call (EvAbs configFile) (FilePath.Abs (Getwd env) configFile) ;;
            match absr with
            | inr err => exit (Returned None (Some err))
            | inl absCfgPath => ret (set_SharedConfigFiles (base_options profile region) [absCfgPath])
            end
          else ret (base_options profile region)) ;;
  sr <- call (EvNewSessionWithOptions opt) (NewSessionWithOptions env opt) ;;
  sess <- session_Must sr ;;
  err <- call (EvCredentialsGet sess) (Credentials_Get env sess) ;;
  match assert_awserr err with
  | Some code =>
      if String.eqb code "NoCredentialProviders"
      then exit (Returned None (errors_Wrap err "Could not create AWS session"))
      else exit (Returned None (errors_Wrap err "Could not create AWS session"))
  | None =>
      ret (Returned (Some (client_of_session env sess)) None)
  end.

Definition NewAwsClient (env : Env) (profile region configFile : string)
  : ctor_outcome * list event :=
  run (NewAwsClient_body env profile region configFile).

(** [AwsClientInput]. *)
Record AwsClientInput := {
  AccessKeyID : string;
  SecretAccessKey : string;
  SessionToken : string;
  InputRegion : string
}.

(** The [config] literal of lines 99-102. *)
Definition static_config (input : AwsClientInput) : Config :=
  {| Credentials := Some {| static_id := AccessKeyID input;
                            static_secret := SecretAccessKey input;
                            static_token := SessionToken input |};
     Region := Some (InputRegion input) |}.

(** A nil-pointer dereference panics with a runtime error. *)
Definition nil_deref : error :=
  GoError "runtime error: invalid memory address or nil pointer dereference".

(** [NewAwsClientWithInput(input)], lines 98-114; [input] is a pointer. *)
Definition NewAwsClientWithInput_body (env : Env) (input : option AwsClientInput)
  : M ctor_outcome :=
  match input with
  | None => exit (Panicked nil_deref)
  | Some inp =>
      let config := static_config inp in
      sr <- call (EvNewSession config) (NewSession env config) ;;
      match sr with
      | inr err => exit (Returned None (Some err))
      | inl s => ret (Returned (Some (client_of_session env s)) None)
      end
  end.

Definition NewAwsClientWithInput (env : Env) (input : option AwsClientInput)
  : ctor_outcome * list event :=
  run (NewAwsClientWithInput_body env input).

(* ------------------------------------------------------------------------ *)
(** ** The forwarding methods, lines 116-170 *)

(** How a method call ends: its output and error pair, or a panic. *)
Inductive call_outcome : Type :=
| CallReturned (out : option sdk_struct) (err : option error)
| CallPanicked (value : error).

(** [return c.<field>.<Method>(input)]: calling a method on a nil interface
    value panics. *)
Definition on_sts (c : AwsClient) (m : STSAPI -> sdk_call) (input : option sdk_struct)
  : call_outcome :=
  match stsClient c with
  | Some s => let '(out, err) := m s input in CallReturned out err
  | None => CallPanicked nil_deref
  end.

Definition on_s3 (c : AwsClient) (m : S3API -> sdk_call) (input : option sdk_struct)
  : call_outcome :=
  match s3Client c with
  | Some s => let '(out, err) := m s input in CallReturned out err
  | None => CallPanicked nil_deref
  end.

Definition on_iam (c : AwsClient) (m : IAMAPI -> sdk_call) (input : option sdk_struct)
  : call_outcome :=
  match iamClient c with
  | Some s => let '(out, err) := m s input in CallReturned out err
  | None => CallPanicked nil_deref
  end.

(** Each method has a pointer receiver (a pointer to [AwsClient]); it returns its
    outcome together with the receiver's state after the call. *)
Definition AssumeRole (c : AwsClient) (input : option sdk_struct) : call_outcome * AwsClient :=
  (on_sts c sts_AssumeRole input, c).
Definition GetCallerIdentity (c : AwsClient) (input : option sdk_struct) : call_outcome * AwsClient :=
  (on_sts c sts_GetCallerIdentity input, c).
Definition GetFederationToken (c : AwsClient) (input : option sdk_struct) : call_outcome * AwsClient :=
  (on_sts c sts_GetFederationToken input, c).
Definition ListBuckets (c : AwsClient) (input : option sdk_struct) : call_outcome * AwsClient :=
  (on_s3 c s3_ListBuckets input, c).
Definition DeleteBucket (c : AwsClient) (input : option sdk_struct) : call_outcome * AwsClient :=
  (on_s3 c s3_DeleteBucket input, c).
Definition ListObjects (c : AwsClient) (input : option sdk_struct) : call_outcome * AwsClient :=
  (on_s3 c s3_ListObjects input, c).
Definition DeleteObjects (c : AwsClient) (input : option sdk_struct) : call_outcome * AwsClient :=
  (on_s3 c s3_DeleteObjects input, c).
Definition CreateAccessKey (c : AwsClient) (input : option sdk_struct) : call_outcome * AwsClient :=
  (on_iam c iam_CreateAccessKey input, c).
Definition DeleteAccessKey (c : AwsClient) (input : option sdk_struct) : call_outcome * AwsClient :=
  (on_iam c iam_DeleteAccessKey input, c).
Definition ListAccessKeys (c : AwsClient) (input : option sdk_struct) : call_outcome * AwsClient :=
  (on_iam c iam_ListAccessKeys input, c).
Definition GetUser (c : AwsClient) (input : option sdk_struct) : call_outcome * AwsClient :=
  (on_iam c iam_GetUser input, c).
Definition CreateUser (c : AwsClient) (input : option sdk_struct) : call_outcome * AwsClient :=
  (on_iam c iam_CreateUser input, c).
Definition ListUsers (c : AwsClient) (input : option sdk_struct) : call_outcome * AwsClient :=
  (on_iam c iam_ListUsers input, c).
Definition AttachUserPolicy (c : AwsClient) (input : option sdk_struct) : call_outcome * AwsClient :=
  (on_iam c iam_AttachUserPolicy input, c).

(** A call through the [Client] interface. *)
Inductive ClientCall : Type :=
| CAssumeRole (input : option sdk_struct)
| CGetCallerIdentity (input : option sdk_struct)
| CGetFederationToken (input : option sdk_struct)
| CListBuckets (input : option sdk_struct)
| CDeleteBucket (input : option sdk_struct)
| CListObjects (input : option sdk_struct)
| CDeleteObjects (input : option sdk_struct)
| CCreateAccessKey (input : option sdk_struct)
| CDeleteAccessKey (input : option sdk_struct)
| CListAccessKeys (input : option sdk_struct)
| CGetUser (input : option sdk_struct)
| CCreateUser (input : option sdk_struct)
| CListUsers (input : option sdk_struct)
| CAttachUserPolicy (input : option sdk_struct).

(** Dynamic dispatch of the [Client] interface to [*AwsClient]. *)
Definition dispatch (c : AwsClient) (k : ClientCall) : call_outcome * AwsClient :=
  match k with
  | CAssumeRole i => AssumeRole c i
  | CGetCallerIdentity i => GetCallerIdentity c i
  | CGetFederationToken i => GetFederationToken c i
  | CListBuckets i => ListBuckets c i
  | CDeleteBucket i => DeleteBucket c i
  | CListObjects i => ListObjects c i
  | CDeleteObjects i => DeleteObjects c i
  | CCreateAccessKey i => CreateAccessKey c i
  | CDeleteAccessKey i => DeleteAccessKey c i
  | CListAccessKeys i => ListAccessKeys c i
  | CGetUser i => GetUser c i
  | CCreateUser i => CreateUser c i
  | CListUsers i => ListUsers c i
  | CAttachUserPolicy i => AttachUserPolicy c i
  end.

(** The receiver's state after a sequence of calls. *)
Fixpoint run_calls (c : AwsClient) (ks : list ClientCall) : AwsClient :=
  match ks with
  | [] => c
  | k :: ks' => run_calls (snd (dispatch c k)) ks'
  end.

(** The three sub-client fields are non-nil. *)
Definition subclients_nonnil (c : AwsClient) : Prop :=
  iamClient c <> None /\ stsClient c <> None /\ s3Client c <> None.

(** What the credential probe of [NewAwsClient] leads to, lines 79-94. *)
Definition probe_result (env : Env) (sess : Session) : ctor_outcome :=
  let err := Credentials_Get env sess in
  match assert_awserr err with
  | Some _ => Returned None (errors_Wrap err "Could not create AWS session")
  | None => Returned (Some (client_of_session env sess)) None
  end.

(** A construction outcome that is a nil client with an error built by
    [errors.Wrap]. *)
Definition returns_wrapped_error (o : ctor_outcome) : Prop :=
  exists e msg, o = Returned None (Some (Wrapped e msg)).

(** [env] with another credential chain. *)
Definition with_Credentials_Get (env : Env) (g : Session -> option error) : Env :=
  {| Getwd := Getwd env; NewSessionWithOptions := NewSessionWithOptions env;
     NewSession := NewSession env; Credentials_Get := g;
     iam_New := iam_New env; sts_New := sts_New env; s3_New := s3_New env |}.

(* ------------------------------------------------------------------------ *)
(** ** Concrete environments *)

Definition mock_answer (name : string) : sdk_call :=
  fun _ => (Some [("Operation", name)], None).

Definition mock_sts : STSAPI :=
  {| sts_AssumeRole := mock_answer "AssumeRole";
     sts_GetCallerIdentity := mock_answer "GetCallerIdentity";
     sts_GetFederationToken := mock_answer "GetFederationToken" |}.

Definition mock_s3 : S3API :=
  {| s3_ListBuckets := mock_answer "ListBuckets";
     s3_DeleteBucket := mock_answer "DeleteBucket";
     s3_ListObjects := mock_answer "ListObjects";
     s3_DeleteObjects := mock_answer "DeleteObjects" |}.

Definition mock_iam : IAMAPI :=
  {| iam_CreateAccessKey := mock_answer "CreateAccessKey";
     iam_DeleteAccessKey := mock_answer "DeleteAccessKey";
     iam_ListAccessKeys := mock_answer "ListAccessKeys";
     iam_GetUser := mock_answer "GetUser";
     iam_CreateUser := mock_answer "CreateUser";
     iam_ListUsers := mock_answer "ListUsers";
     iam_AttachUserPolicy := mock_answer "AttachUserPolicy" |}.

(** Everything succeeds; the working directory is /home/user. *)
Definition env_ok : Env :=
  {| Getwd := inl "/home/user";
     NewSessionWithOptions := fun _ => inl 1;
     NewSession := fun _ => inl 2;
     Credentials_Get := fun _ => None;
     iam_New := fun _ => mock_iam;
     sts_New := fun _ => mock_sts;
     s3_New := fun _ => mock_s3 |}.

(** No credential provider in the chain finds credentials. *)
Definition env_no_credentials : Env :=
  with_Credentials_Get env_ok
    (fun _ => Some (AwsError "NoCredentialProviders" "no valid providers in chain")).

(** The credential probe fails with an error that is not an [awserr.Error]. *)
Definition env_plain_probe_error : Env :=
  with_Credentials_Get env_ok
    (fun _ => Some (GoError "open /home/user/.aws/sso/cache/token.json: permission denied")).

(** Loading the shared configuration fails. *)
Definition env_session_fails : Env :=
  {| Getwd := Getwd env_ok;
     NewSessionWithOptions := fun _ => inr (AwsError "SharedConfigLoadError" "failed to load config file");
     NewSession := fun _ => inr (AwsError "SharedConfigLoadError" "failed to load config file");
     Credentials_Get := Credentials_Get env_ok;
     iam_New := iam_New env_ok; sts_New := sts_New env_ok; s3_New := s3_New env_ok |}.

(** The working directory cannot be determined. *)
Definition env_no_wd : Env :=
  {| Getwd := inr (GoError "getwd: no such file or directory");
     NewSessionWithOptions := NewSessionWithOptions env_ok;
     NewSession := NewSession env_ok;
     Credentials_Get := Credentials_Get env_ok;
     iam_New := iam_New env_ok; sts_New := sts_New env_ok; s3_New := s3_New env_ok |}.

Definition sample_input : AwsClientInput :=
  {| AccessKeyID := "AKIDEXAMPLE"; SecretAccessKey := "secret";
     SessionToken := "token"; InputRegion := "us-east-1" |}.

(** [env] with another working directory lookup. *)
Definition with_Getwd (env : Env) (wd : string + error) : Env :=
  {| Getwd := wd; NewSessionWithOptions := NewSessionWithOptions env;
     NewSession := NewSession env; Credentials_Get := Credentials_Get env;
     iam_New := iam_New env; sts_New := sts_New env; s3_New := s3_New env |}.


(** [env] with another [session.NewSessionWithOptions]. *)
Definition with_NewSessionWithOptions (env : Env) (f : Options -> Session + error) : Env :=
  {| Getwd := Getwd env; NewSessionWithOptions := f;
     NewSession := NewSession env; Credentials_Get := Credentials_Get env;
     iam_New := iam_New env; sts_New := sts_New env; s3_New := s3_New env |}.



(** The sub-client a [Client] call goes through. *)
Inductive service : Type := IAM | STS | S3.

Definition call_service (k : ClientCall) : service :=
  match k with
  | CAssumeRole _ | CGetCallerIdentity _ | CGetFederationToken _ => STS
  | CListBuckets _ | CDeleteBucket _ | CListObjects _ | CDeleteObjects _ => S3
  | CCreateAccessKey _ | CDeleteAccessKey _ | CListAccessKeys _ | CGetUser _
  | CCreateUser _ | CListUsers _ | CAttachUserPolicy _ => IAM
  end.

(** Two facades hold the same sub-client for a service. *)
Definition same_subclient (svc : service) (c c' : AwsClient) : Prop :=
  match svc with
  | IAM => iamClient c = iamClient c'
  | STS => stsClient c = stsClient c'
  | S3 => s3Client c = s3Client c'
  end.

(** The sub-client of a service is nil. *)
Definition subclient_nil (svc : service) (c : AwsClient) : Prop :=
  match svc with
  | IAM => iamClient c = None
  | STS => stsClient c = None
  | S3 => s3Client c = None
  end.

(** A returned [(Client, error)] pair has exactly one non-nil component. *)
Definition exactly_one_nonnil (o : ctor_outcome) : Prop :=
  match o with
  | Returned c e => (c = None <-> e <> None)
  | Panicked _ => True
  end.


(* ------------------------------------------------------------------------ *)
(** ** Sanity checks on concrete inputs *)

Example abs_relative : FilePath.Abs (Getwd env_ok) "conf/../aws.cfg" = inl "/home/user/aws.cfg".
Proof. reflexivity. Qed.

Example abs_absolute : FilePath.Abs (Getwd env_ok) "/etc//aws/./cfg/" = inl "/etc/aws/cfg".
Proof. reflexivity. Qed.

Example clean_root_dotdot : FilePath.Clean "/../a/.." = "/".
Proof. reflexivity. Qed.

Example new_client_ok :
  NewAwsClient env_ok "default" "us-east-1" "cfg" =
  (Returned (Some (client_of_session env_ok 1)) None,
   [EvAbs "cfg";
    EvNewSessionWithOptions (set_SharedConfigFiles (base_options "default" "us-east-1") ["/home/user/cfg"]);
    EvCredentialsGet 1]).
Proof. reflexivity. Qed.

Example new_client_no_credentials :
  fst (NewAwsClient env_no_credentials "default" "us-east-1" "") =
  Returned None (Some (Wrapped (AwsError "NoCredentialProviders" "no valid providers in chain")
                               "Could not create AWS session")).
Proof. reflexivity. Qed.

(* ------------------------------------------------------------------------ *)
(** ** Unfolding the constructors *)

(** The options [NewAwsClient] passes to the session, or the early error. *)
Definition options_of (env : Env) (profile region configFile : string) : Options + error :=
  if String.eqb configFile "" then inl (base_options profile region)
  else match FilePath.Abs (Getwd env) configFile with
       | inr err => inr err
       | inl p => inl (set_SharedConfigFiles (base_options profile region) [p])
       end.

Definition abs_prefix (configFile : string) : list event :=
  if String.eqb configFile "" then [] else [EvAbs configFile].

Lemma NewAwsClient_eq (env : Env) (profile region configFile : string) :
  NewAwsClient env profile region configFile =
  match options_of env profile region configFile with
  | inr err => (Returned None (Some err), abs_prefix configFile)
  | inl opt =>
      match NewSessionWithOptions env opt with
      | inr err => (Panicked err, abs_prefix configFile ++ [EvNewSessionWithOptions opt])
      | inl s => (probe_result env s,
                  abs_prefix configFile ++ [EvNewSessionWithOptions opt; EvCredentialsGet s])
      end
  end%list.
Proof.
  unfold NewAwsClient, run, NewAwsClient_body, options_of, abs_prefix, probe_result,
    bind, call, ret, exit, session_Must.
  destruct (String.eqb configFile "") eqn:Hcfg; simpl.
  - destruct (NewSessionWithOptions env _) as [s|err]; simpl; [|reflexivity].
    destruct (Credentials_Get env s) as [[code msg| |]|]; simpl; try reflexivity.
    destruct (String.eqb code "NoCredentialProviders"); reflexivity.
  - destruct (FilePath.Abs (Getwd env) configFile) as [p|err]; simpl; [|reflexivity].
    destruct (NewSessionWithOptions env _) as [s|err]; simpl; [|reflexivity].
    destruct (Credentials_Get env s) as [[code msg| |]|]; simpl; try reflexivity.
    destruct (String.eqb code "NoCredentialProviders"); reflexivity.
Qed.

Lemma NewAwsClientWithInput_eq (env : Env) (inp : AwsClientInput) :
  NewAwsClientWithInput env (Some inp) =
  match NewSession env (static_config inp) with
  | inr err => (Returned None (Some err), [EvNewSession (static_config inp)])
  | inl s => (Returned (Some (client_of_session env s)) None, [EvNewSession (static_config inp)])
  end.
Proof.
  unfold NewAwsClientWithInput, run, NewAwsClientWithInput_body, bind, call, ret, exit; simpl.
  destruct (NewSession env (static_config inp)); reflexivity.
Qed.

Lemma abs_prefix_no_probe (configFile : string) (s : Session) :
  ~ In (EvCredentialsGet s) (abs_prefix configFile).
Proof.
  unfold abs_prefix; destruct (String.eqb configFile ""); simpl; intuition discriminate.
Qed.

Lemma abs_prefix_no_session (configFile : string) (opt : Options) :
  ~ In (EvNewSessionWithOptions opt) (abs_prefix configFile).
Proof.
  unfold abs_prefix; destruct (String.eqb configFile ""); simpl; intuition discriminate.
Qed.

(** When the log records a credential probe on [s], the outcome is the
    probe's. *)
Lemma NewAwsClient_after_probe (env : Env) (profile region configFile : string) (s : Session) :
  In (EvCredentialsGet s) (snd (NewAwsClient env profile region configFile)) ->
  fst (NewAwsClient env profile region configFile) = probe_result env s.
Proof.
  rewrite NewAwsClient_eq.
  destruct (options_of env profile region configFile) as [opt|err]; simpl.
  - destruct (NewSessionWithOptions env opt) as [s'|err]; simpl; intros Hin;
      apply in_app_or in Hin; destruct Hin as [Hin|Hin];
      try (exfalso; eapply abs_prefix_no_probe; eassumption).
    + simpl in Hin; destruct Hin as [Hin|[Hin|[]]]; [discriminate|].
      injection Hin as ->; reflexivity.
    + simpl in Hin; destruct Hin as [Hin|[]]; discriminate.
  - intros Hin; exfalso; eapply abs_prefix_no_probe; eassumption.
Qed.

(** A constructor outcome carrying a client comes from a probe. *)
Lemma NewAwsClient_client_from_probe (env : Env) (profile region configFile : string)
  (c : AwsClient) (e : option error) :
  fst (NewAwsClient env profile region configFile) = Returned (Some c) e ->
  exists s, In (EvCredentialsGet s) (snd (NewAwsClient env profile region configFile)) /\
            c = client_of_session env s.
Proof.
  rewrite NewAwsClient_eq.
  destruct (options_of env profile region configFile) as [opt|err]; simpl; [|discriminate].
  destruct (NewSessionWithOptions env opt) as [s|err]; simpl; [|discriminate].
  unfold probe_result.
  destruct (assert_awserr (Credentials_Get env s)); intros H; [discriminate|].
  injection H as <- _. exists s; split; [|reflexivity].
  apply in_or_app; right; simpl; auto.
Qed.

Lemma IsAbs_app (a b : string) : FilePath.IsAbs a = true -> FilePath.IsAbs (a ++ b) = true.
Proof. destruct a; simpl; [discriminate|auto]. Qed.

Lemma IsAbs_Clean (p : string) : FilePath.IsAbs p = true -> FilePath.IsAbs (FilePath.Clean p) = true.
Proof.
  intros H. unfold FilePath.Clean.
  destruct (String.eqb p "") eqn:E.
  - apply String.eqb_eq in E; subst; discriminate.
  - rewrite H; reflexivity.
Qed.

(** With a rooted working directory, [filepath.Abs] of a non-empty path
    that succeeds yields an absolute path. *)
Lemma IsAbs_Abs (wd : string + error) (path p : string) :
  (forall d, wd = inl d -> FilePath.IsAbs d = true) ->
  path <> "" -> FilePath.Abs wd path = inl p -> FilePath.IsAbs p = true.
Proof.
  intros Hwd Hne. unfold FilePath.Abs.
  destruct (FilePath.IsAbs path) eqn:Ha.
  - intros H; injection H as <-; apply IsAbs_Clean; exact Ha.
  - destruct wd as [d|err]; [|discriminate].
    intros H; injection H as <-.
    specialize (Hwd d eq_refl).
    unfold FilePath.Join.
    destruct (String.eqb d "") eqn:Ed.
    + apply String.eqb_eq in Ed; subst; discriminate.
    + destruct (String.eqb path "") eqn:Ep.
      * apply String.eqb_eq in Ep; contradiction.
      * apply IsAbs_Clean, IsAbs_app; exact Hwd.
Qed.

(* ------------------------------------------------------------------------ *)
(** ** Claims *)

(** C1 (code_bug evidence): the credential probe fails with an error that
    is not an [awserr.Error], and [NewAwsClient] still returns a non-nil
    client and a nil error. *)
Lemma NewAwsClient_plain_probe_error_returns_client :
  Credentials_Get env_plain_probe_error 1 <> None /\
  NewAwsClient env_plain_probe_error "default" "us-east-1" "" =
  (Returned (Some (client_of_session env_plain_probe_error 1)) None,
   [EvNewSessionWithOptions (base_options "default" "us-east-1"); EvCredentialsGet 1]).
Proof. split; [discriminate | reflexivity]. Qed.

(** C2: when the credential probe of [NewAwsClient] returns a non-nil
    error that does not implement [awserr.Error], the error is swallowed:
    the constructor returns a non-nil client and a nil error. *)
Theorem NewAwsClient_swallows_non_awserr (env : Env) (profile region configFile : string)
  (s : Session) (e : error) :
  In (EvCredentialsGet s) (snd (NewAwsClient env profile region configFile)) ->
  Credentials_Get env s = Some e ->
  assert_awserr (Some e) = None ->
  fst (NewAwsClient env profile region configFile) =
  Returned (Some (client_of_session env s)) None.
Proof.
  intros Hin Hget Hnot.
  rewrite (NewAwsClient_after_probe _ _ _ _ _ Hin).
  unfold probe_result; rewrite Hget, Hnot; reflexivity.
Qed.

Lemma NewAwsClient_swallows_non_awserr_witness :
  In (EvCredentialsGet 1) (snd (NewAwsClient env_plain_probe_error "default" "us-east-1" "")) /\
  fst (NewAwsClient env_plain_probe_error "default" "us-east-1" "") =
  Returned (Some (client_of_session env_plain_probe_error 1)) None.
Proof.
  split.
  - simpl; auto.
  - apply (NewAwsClient_swallows_non_awserr env_plain_probe_error "default" "us-east-1" "" 1
             (GoError "open /home/user/.aws/sso/cache/token.json: permission denied")).
    + simpl; auto.
    + reflexivity.
    + reflexivity.
Defined.

(** C3 (counterexample): a failed session construction makes
    [NewAwsClient] panic through [session.Must], and a failed
    [filepath.Abs] is returned without a contextual wrap. *)
Lemma NewAwsClient_failures_not_all_wrapped :
  fst (NewAwsClient env_session_fails "default" "us-east-1" "") =
    Panicked (AwsError "SharedConfigLoadError" "failed to load config file") /\
  ~ returns_wrapped_error (fst (NewAwsClient env_session_fails "default" "us-east-1" "")) /\
  fst (NewAwsClient env_no_wd "default" "us-east-1" "aws.cfg") =
    Returned None (Some (GoError "getwd: no such file or directory")) /\
  ~ returns_wrapped_error (fst (NewAwsClient env_no_wd "default" "us-east-1" "aws.cfg")).
Proof.
  split; [reflexivity|]. split.
  { intros [e [msg H]]; discriminate H. }
  split; [reflexivity|].
  intros [e [msg H]]; discriminate H.
Qed.

(** C3 (amended): each construction failure of [NewAwsClient] is detected
    once and ends the construction: a failed [filepath.Abs] is returned
    unwrapped with a nil client and nothing else is called; a failed
    session construction panics (with the session error, through
    [session.Must]); a probe error implementing [awserr.Error] is returned
    wrapped as "Could not create AWS session" with a nil client. *)
Theorem NewAwsClient_construction_failures (env : Env) (profile region configFile : string) :
  (forall err, configFile <> "" -> FilePath.Abs (Getwd env) configFile = inr err ->
     NewAwsClient env profile region configFile = (Returned None (Some err), [EvAbs configFile])) /\
  (forall opt err, In (EvNewSessionWithOptions opt) (snd (NewAwsClient env profile region configFile)) ->
     NewSessionWithOptions env opt = inr err ->
     NewAwsClient env profile region configFile =
       (Panicked err, abs_prefix configFile ++ [EvNewSessionWithOptions opt])%list) /\
  (forall s e code, In (EvCredentialsGet s) (snd (NewAwsClient env profile region configFile)) ->
     Credentials_Get env s = Some e -> assert_awserr (Some e) = Some code ->
     fst (NewAwsClient env profile region configFile) =
       Returned None (Some (Wrapped e "Could not create AWS session"))).
Proof.
  split; [|split].
  - intros err Hne Habs. rewrite NewAwsClient_eq. unfold options_of, abs_prefix.
    destruct (String.eqb configFile "") eqn:E.
    + apply String.eqb_eq in E; contradiction.
    + rewrite Habs; reflexivity.
  - intros opt err. rewrite NewAwsClient_eq.
    destruct (options_of env profile region configFile) as [opt'|err']; simpl.
    + intros Hin Hs.
      assert (opt' = opt) as ->.
      { destruct (NewSessionWithOptions env opt') as [s|err'];
          apply in_app_or in Hin; destruct Hin as [Hin|Hin];
          try (exfalso; eapply abs_prefix_no_session; eassumption);
          simpl in Hin; intuition congruence. }
      rewrite Hs; reflexivity.
    + intros Hin; exfalso; eapply abs_prefix_no_session; eassumption.
  - intros s e code Hin Hget Hcode.
    rewrite (NewAwsClient_after_probe _ _ _ _ _ Hin).
    unfold probe_result; rewrite Hget, Hcode; reflexivity.
Qed.

Lemma NewAwsClient_construction_failures_witness :
  NewAwsClient env_no_wd "default" "us-east-1" "aws.cfg" =
    (Returned None (Some (GoError "getwd: no such file or directory")), [EvAbs "aws.cfg"]) /\
  NewAwsClient env_session_fails "default" "us-east-1" "" =
    (Panicked (AwsError "SharedConfigLoadError" "failed to load config file"),
     [EvNewSessionWithOptions (base_options "default" "us-east-1")]) /\
  fst (NewAwsClient env_no_credentials "default" "us-east-1" "") =
    Returned None (Some (Wrapped (AwsError "NoCredentialProviders" "no valid providers in chain")
                                 "Could not create AWS session")).
Proof.
  split; [|split].
  - apply (proj1 (NewAwsClient_construction_failures env_no_wd "default" "us-east-1" "aws.cfg")).
    + discriminate.
    + reflexivity.
  - apply (proj1 (proj2 (NewAwsClient_construction_failures env_session_fails "default" "us-east-1" ""))).
    + simpl; auto.
    + reflexivity.
  - apply (proj2 (proj2 (NewAwsClient_construction_failures env_no_credentials "default" "us-east-1" ""))
             1 (AwsError "NoCredentialProviders" "no valid providers in chain") "NoCredentialProviders").
    + simpl; auto.
    + reflexivity.
    + reflexivity.
Defined.

(** C4: with non-nil sub-clients, every forwarding method returns exactly
    the response and the error of the corresponding sub-client call on the
    same input. *)
Theorem forwarding_methods_pass_through (c : AwsClient) (iam : IAMAPI) (sts : STSAPI) (s3 : S3API)
  (input : option sdk_struct) :
  iamClient c = Some iam -> stsClient c = Some sts -> s3Client c = Some s3 ->
  let pass r := CallReturned (fst r) (snd r) in
  fst (AssumeRole c input) = pass (sts_AssumeRole sts input) /\
  fst (GetCallerIdentity c input) = pass (sts_GetCallerIdentity sts input) /\
  fst (GetFederationToken c input) = pass (sts_GetFederationToken sts input) /\
  fst (ListBuckets c input) = pass (s3_ListBuckets s3 input) /\
  fst (DeleteBucket c input) = pass (s3_DeleteBucket s3 input) /\
  fst (ListObjects c input) = pass (s3_ListObjects s3 input) /\
  fst (DeleteObjects c input) = pass (s3_DeleteObjects s3 input) /\
  fst (CreateAccessKey c input) = pass (iam_CreateAccessKey iam input) /\
  fst (DeleteAccessKey c input) = pass (iam_DeleteAccessKey iam input) /\
  fst (ListAccessKeys c input) = pass (iam_ListAccessKeys iam input) /\
  fst (GetUser c input) = pass (iam_GetUser iam input) /\
  fst (CreateUser c input) = pass (iam_CreateUser iam input) /\
  fst (ListUsers c input) = pass (iam_ListUsers iam input) /\
  fst (AttachUserPolicy c input) = pass (iam_AttachUserPolicy iam input).
Proof.
  intros Hi Ht Hs pass.
  unfold pass, AssumeRole, GetCallerIdentity, GetFederationToken, ListBuckets, DeleteBucket,
    ListObjects, DeleteObjects, CreateAccessKey, DeleteAccessKey, ListAccessKeys, GetUser,
    CreateUser, ListUsers, AttachUserPolicy, on_sts, on_s3, on_iam; simpl.
  rewrite Hi, Ht, Hs.
  repeat split; match goal with |- (let '(_, _) := ?r in _) = _ => destruct r; reflexivity end.
Qed.

Lemma forwarding_methods_pass_through_witness :
  fst (AssumeRole (client_of_session env_ok 1) None) =
    CallReturned (Some [("Operation", "AssumeRole")]) None /\
  fst (AttachUserPolicy (client_of_session env_ok 1) None) =
    CallReturned (Some [("Operation", "AttachUserPolicy")]) None.
Proof.
  destruct (forwarding_methods_pass_through (client_of_session env_ok 1) mock_iam mock_sts mock_s3 None
              eq_refl eq_refl eq_refl) as [H1 H2].
  split; [exact H1|].
  repeat match type of H2 with _ /\ ?R => clear -H2; destruct H2 as [_ H2] end.
  exact H2.
Defined.

(** C5: [NewAwsClientWithInput] makes no credential probe: its outcome and
    its calls do not depend on the credential chain, its only outside call
    is the session construction from the static credentials and the region
    of the input, and it returns an error only when that construction
    fails, with a nil client and that very error. *)
Theorem NewAwsClientWithInput_no_probe (env : Env) (g : Session -> option error)
  (input : option AwsClientInput) :
  NewAwsClientWithInput (with_Credentials_Get env g) input = NewAwsClientWithInput env input /\
  (forall inp, input = Some inp ->
     snd (NewAwsClientWithInput env input) = [EvNewSession (static_config inp)]) /\
  (forall c e, fst (NewAwsClientWithInput env input) = Returned c (Some e) ->
     exists inp, input = Some inp /\ NewSession env (static_config inp) = inr e /\ c = None).
Proof.
  destruct input as [inp|].
  - rewrite !NewAwsClientWithInput_eq. simpl.
    split; [|split].
    + unfold client_of_session; simpl.
      destruct (NewSession env (static_config inp)); reflexivity.
    + intros i Hi; injection Hi as <-.
      destruct (NewSession env (static_config inp)); reflexivity.
    + intros c e.
      destruct (NewSession env (static_config inp)) as [s|err] eqn:Hs; simpl; intros H;
        [discriminate|].
      injection H as <- <-. exists inp; auto.
  - split; [reflexivity|]. split.
    + discriminate.
    + simpl; discriminate.
Qed.

Lemma NewAwsClientWithInput_no_probe_witness :
  snd (NewAwsClientWithInput env_ok (Some sample_input)) = [EvNewSession (static_config sample_input)] /\
  exists inp, Some sample_input = Some inp /\
    NewSession env_session_fails (static_config inp) =
      inr (AwsError "SharedConfigLoadError" "failed to load config file") /\ @None AwsClient = None.
Proof.
  split.
  - apply (proj1 (proj2 (NewAwsClientWithInput_no_probe env_ok (fun _ => None) (Some sample_input)))).
    reflexivity.
  - apply (proj2 (proj2 (NewAwsClientWithInput_no_probe env_session_fails (fun _ => None)
                            (Some sample_input)))).
    reflexivity.
Defined.

(** C6: for a non-empty config file, [NewAwsClient] first resolves it with
    [filepath.Abs]; if that succeeds (it only fails when the working
    directory cannot be determined, and then no session is built), the
    session is then created with options whose shared config files are
    exactly the resolved path, which is absolute. *)
Theorem NewAwsClient_config_file_absolute (env : Env) (profile region configFile : string) :
  (forall wd, Getwd env = inl wd -> FilePath.IsAbs wd = true) ->
  configFile <> "" ->
  (exists err, FilePath.Abs (Getwd env) configFile = inr err /\
     NewAwsClient env profile region configFile = (Returned None (Some err), [EvAbs configFile])) \/
  (exists p rest, FilePath.Abs (Getwd env) configFile = inl p /\ FilePath.IsAbs p = true /\
     snd (NewAwsClient env profile region configFile) =
       EvAbs configFile
       :: EvNewSessionWithOptions (set_SharedConfigFiles (base_options profile region) [p])
       :: rest /\
     SharedConfigFiles (set_SharedConfigFiles (base_options profile region) [p]) = [p]).
Proof.
  intros Hwd Hne.
  rewrite NewAwsClient_eq. unfold options_of, abs_prefix.
  destruct (String.eqb configFile "") eqn:E.
  { apply String.eqb_eq in E; contradiction. }
  destruct (FilePath.Abs (Getwd env) configFile) as [p|err] eqn:Habs.
  - right. exists p.
    destruct (NewSessionWithOptions env _) as [s|err]; simpl.
    + exists [EvCredentialsGet s]. repeat split; auto.
      eapply IsAbs_Abs; eauto.
    + exists []. repeat split; auto.
      eapply IsAbs_Abs; eauto.
  - left. exists err; auto.
Qed.

Lemma NewAwsClient_config_file_absolute_witness :
  (exists err, FilePath.Abs (Getwd env_ok) "conf/aws.cfg" = inr err /\
     NewAwsClient env_ok "default" "us-east-1" "conf/aws.cfg" =
       (Returned None (Some err), [EvAbs "conf/aws.cfg"])) \/
  (exists p rest, FilePath.Abs (Getwd env_ok) "conf/aws.cfg" = inl p /\ FilePath.IsAbs p = true /\
     snd (NewAwsClient env_ok "default" "us-east-1" "conf/aws.cfg") =
       EvAbs "conf/aws.cfg"
       :: EvNewSessionWithOptions (set_SharedConfigFiles (base_options "default" "us-east-1") [p])
       :: rest /\
     SharedConfigFiles (set_SharedConfigFiles (base_options "default" "us-east-1") [p]) = [p]).
Proof.
  apply (NewAwsClient_config_file_absolute env_ok "default" "us-east-1" "conf/aws.cfg").
  - intros wd H; injection H as <-; reflexivity.
  - discriminate.
Defined.

(** C7: with an empty config file, the first outside call of
    [NewAwsClient] is the session construction, with options whose shared
    config files are left unset (a nil slice). *)
Theorem NewAwsClient_empty_config_file_unset (env : Env) (profile region : string) :
  exists opt rest,
    snd (NewAwsClient env profile region "") = EvNewSessionWithOptions opt :: rest /\
    SharedConfigFiles opt = [] /\ opt = base_options profile region.
Proof.
  rewrite NewAwsClient_eq. unfold options_of, abs_prefix. simpl.
  exists (base_options profile region).
  destruct (NewSessionWithOptions env (base_options profile region)) as [s|err]; simpl.
  - exists [EvCredentialsGet s]; auto.
  - exists []; auto.
Qed.

(** C8: given static credentials and a region for which the session
    construction succeeds, [NewAwsClientWithInput] returns a non-nil client
    (built from that session) and a nil error. *)
Theorem NewAwsClientWithInput_success (env : Env) (inp : AwsClientInput) (s : Session) :
  NewSession env (static_config inp) = inl s ->
  fst (NewAwsClientWithInput env (Some inp)) = Returned (Some (client_of_session env s)) None.
Proof.
  intros Hs. rewrite NewAwsClientWithInput_eq, Hs. reflexivity.
Qed.

Lemma NewAwsClientWithInput_success_witness :
  NewSession env_ok (static_config sample_input) = inl 2 /\
  fst (NewAwsClientWithInput env_ok (Some sample_input)) =
    Returned (Some (client_of_session env_ok 2)) None.
Proof.
  split; [reflexivity|].
  apply (NewAwsClientWithInput_success env_ok sample_input 2). reflexivity.
Defined.

Lemma run_calls_same (c : AwsClient) (ks : list ClientCall) : run_calls c ks = c.
Proof.
  revert c; induction ks as [|k ks IH]; intros c; simpl; [reflexivity|].
  rewrite IH. destruct k; reflexivity.
Qed.

Lemma client_of_session_nonnil (env : Env) (s : Session) :
  subclients_nonnil (client_of_session env s).
Proof. unfold subclients_nonnil, client_of_session; simpl; repeat split; discriminate. Qed.

(** C9: whenever a constructor returns a nil error together with a client,
    the client's three sub-client fields are non-nil, and they stay so
    after any sequence of calls through the [Client] interface. *)
Theorem constructors_subclients_nonnil (env : Env) :
  (forall profile region configFile c ks,
     fst (NewAwsClient env profile region configFile) = Returned (Some c) None ->
     subclients_nonnil (run_calls c ks)) /\
  (forall input c ks,
     fst (NewAwsClientWithInput env input) = Returned (Some c) None ->
     subclients_nonnil (run_calls c ks)).
Proof.
  split.
  - intros profile region configFile c ks H.
    rewrite run_calls_same.
    destruct (NewAwsClient_client_from_probe _ _ _ _ _ _ H) as [s [_ ->]].
    apply client_of_session_nonnil.
  - intros [inp|] c ks H; [|discriminate H].
    rewrite run_calls_same.
    rewrite NewAwsClientWithInput_eq in H.
    destruct (NewSession env (static_config inp)) as [s|err]; simpl in H; [|discriminate H].
    injection H as <-. apply client_of_session_nonnil.
Qed.

Lemma constructors_subclients_nonnil_witness :
  subclients_nonnil (run_calls (client_of_session env_ok 1) [CListBuckets None; CCreateUser None]) /\
  subclients_nonnil (run_calls (client_of_session env_ok 2) [CAssumeRole None]).
Proof.
  split.
  - apply (proj1 (constructors_subclients_nonnil env_ok) "default" "us-east-1" "cfg").
    reflexivity.
  - apply (proj2 (constructors_subclients_nonnil env_ok) (Some sample_input)).
    reflexivity.
Defined.

(** C10: no forwarding method writes to the facade: after any call through
    the [Client] interface the receiver's three sub-client fields are the
    ones it had before. *)
Theorem forwarding_methods_frame (c : AwsClient) (k : ClientCall) :
  iamClient (snd (dispatch c k)) = iamClient c /\
  stsClient (snd (dispatch c k)) = stsClient c /\
  s3Client (snd (dispatch c k)) = s3Client c.
Proof. destruct k; simpl; auto. Qed.

(* ------------------------------------------------------------------------ *)
(** ** Further properties of [client.go] *)

(** The session options of [NewAwsClient] carry the caller's profile and
    region, and no explicit credentials. *)
Theorem NewAwsClient_options_profile_region (env : Env) (profile region configFile : string)
  (opt : Options) :
  In (EvNewSessionWithOptions opt) (snd (NewAwsClient env profile region configFile)) ->
  opt_Profile opt = profile /\ Region (opt_Config opt) = Some region /\
  Credentials (opt_Config opt) = None.
Proof.
  rewrite NewAwsClient_eq.
  destruct (options_of env profile region configFile) as [o|err] eqn:Ho; simpl.
  - assert (Hopt : opt_Profile o = profile /\ Region (opt_Config o) = Some region /\
                   Credentials (opt_Config o) = None).
    { unfold options_of in Ho.
      destruct (String.eqb configFile ""); [injection Ho as <-; auto|].
      destruct (FilePath.Abs (Getwd env) configFile); [|discriminate].
      injection Ho as <-; auto. }
    intros Hin.
    assert (o = opt) as <-; [|exact Hopt].
    destruct (NewSessionWithOptions env o); simpl in Hin;
      apply in_app_or in Hin; destruct Hin as [Hin|Hin];
      try (exfalso; eapply abs_prefix_no_session; eassumption);
      simpl in Hin; intuition congruence.
  - intros Hin; exfalso; eapply abs_prefix_no_session; eassumption.
Qed.

Lemma NewAwsClient_options_profile_region_witness :
  opt_Profile (base_options "dev" "eu-west-1") = "dev" /\
  Region (opt_Config (base_options "dev" "eu-west-1")) = Some "eu-west-1" /\
  Credentials (opt_Config (base_options "dev" "eu-west-1")) = None.
Proof.
  apply (NewAwsClient_options_profile_region env_ok "dev" "eu-west-1" "").
  simpl; auto.
Defined.

(** With an empty or absolute config file, [NewAwsClient] never depends on
    the working directory: its outcome and calls are the same whatever
    [os.Getwd] returns. *)
Theorem NewAwsClient_absolute_config_ignores_wd (env : Env) (wd : string + error)
  (profile region configFile : string) :
  configFile = "" \/ FilePath.IsAbs configFile = true ->
  NewAwsClient (with_Getwd env wd) profile region configFile =
  NewAwsClient env profile region configFile.
Proof.
  intros Hcfg. rewrite !NewAwsClient_eq.
  assert (Ho : options_of (with_Getwd env wd) profile region configFile =
               options_of env profile region configFile).
  { unfold options_of, FilePath.Abs.
    destruct (String.eqb configFile "") eqn:E; [reflexivity|].
    destruct Hcfg as [->|Ha]; [discriminate|]. rewrite Ha; reflexivity. }
  rewrite Ho. reflexivity.
Qed.

Lemma NewAwsClient_absolute_config_ignores_wd_witness :
  NewAwsClient (with_Getwd env_ok (inr (GoError "getwd: no such file or directory")))
    "default" "us-east-1" "/etc/aws/config" =
  NewAwsClient env_ok "default" "us-east-1" "/etc/aws/config".
Proof.
  apply NewAwsClient_absolute_config_ignores_wd. right; reflexivity.
Defined.

(** With a relative config file and a known working directory [wd], the
    session is built with the single shared config file [filepath.Join(wd,
    configFile)]; with an unknown working directory, [NewAwsClient]
    returns the [os.Getwd] error and builds no session. *)
Theorem NewAwsClient_relative_config (env : Env) (profile region configFile : string) :
  configFile <> "" -> FilePath.IsAbs configFile = false ->
  match Getwd env with
  | inl wd =>
      exists rest, snd (NewAwsClient env profile region configFile) =
        EvAbs configFile
        :: EvNewSessionWithOptions
             (set_SharedConfigFiles (base_options profile region) [FilePath.Join wd configFile])
        :: rest
  | inr err =>
      NewAwsClient env profile region configFile = (Returned None (Some err), [EvAbs configFile])
  end.
Proof.
  intros Hne Hrel. rewrite NewAwsClient_eq. unfold options_of, abs_prefix, FilePath.Abs.
  destruct (String.eqb configFile "") eqn:E; [apply String.eqb_eq in E; contradiction|].
  rewrite Hrel.
  destruct (Getwd env) as [wd|err]; [|reflexivity].
  destruct (NewSessionWithOptions env _) as [s|err]; simpl; eauto.
Qed.

Lemma NewAwsClient_relative_config_witness :
  exists rest, snd (NewAwsClient env_ok "default" "us-east-1" "conf/../aws.cfg") =
    EvAbs "conf/../aws.cfg"
    :: EvNewSessionWithOptions
         (set_SharedConfigFiles (base_options "default" "us-east-1") ["/home/user/aws.cfg"])
    :: rest.
Proof.
  apply (NewAwsClient_relative_config env_ok "default" "us-east-1" "conf/../aws.cfg").
  - discriminate.
  - reflexivity.
Defined.



(** [NewAwsClient] returns a client exactly when the options were built,
    the session was built from them, and the credential probe on that
    session gave no [awserr.Error]; the client's three sub-clients are then
    all built from that one session. *)
Theorem NewAwsClient_success_iff (env : Env) (profile region configFile : string) (c : AwsClient) :
  fst (NewAwsClient env profile region configFile) = Returned (Some c) None <->
  exists opt s, options_of env profile region configFile = inl opt /\
    NewSessionWithOptions env opt = inl s /\
    assert_awserr (Credentials_Get env s) = None /\
    c = client_of_session env s.
Proof.
  rewrite NewAwsClient_eq. split.
  - destruct (options_of env profile region configFile) as [opt|err] eqn:Ho; simpl; [|discriminate].
    destruct (NewSessionWithOptions env opt) as [s|err] eqn:Hs; simpl; [|discriminate].
    unfold probe_result.
    destruct (assert_awserr (Credentials_Get env s)) eqn:Ha; [discriminate|].
    intros H; injection H as <-. exists opt, s; auto.
  - intros (opt & s & Ho & Hs & Ha & ->). rewrite Ho, Hs; simpl.
    unfold probe_result; rewrite Ha; reflexivity.
Qed.

Lemma NewAwsClient_success_iff_witness :
  fst (NewAwsClient env_ok "default" "us-east-1" "") = Returned (Some (client_of_session env_ok 1)) None.
Proof.
  apply (NewAwsClient_success_iff env_ok "default" "us-east-1" "").
  exists (base_options "default" "us-east-1"), 1. repeat split.
Defined.

(** Both constructors never return a partial result: a returned
    [(Client, error)] pair has a nil client exactly when its error is
    non-nil. *)
Theorem constructors_exactly_one_nonnil (env : Env) :
  (forall profile region configFile,
     exactly_one_nonnil (fst (NewAwsClient env profile region configFile))) /\
  (forall input, exactly_one_nonnil (fst (NewAwsClientWithInput env input))).
Proof.
  split.
  - intros profile region configFile. rewrite NewAwsClient_eq.
    destruct (options_of env profile region configFile) as [opt|err]; simpl.
    + destruct (NewSessionWithOptions env opt) as [s|err]; simpl; [|exact I].
      unfold probe_result.
      destruct (Credentials_Get env s) as [e|]; simpl.
      * destruct e; simpl; split; intros; congruence.
      * split; intros; congruence.
    + split; intros; congruence.
  - intros [inp|]; [|exact I].
    rewrite NewAwsClientWithInput_eq.
    destruct (NewSession env (static_config inp)); simpl; split; intros; congruence.
Qed.



(** A call through the [Client] interface only reads the sub-client of its
    own service: two facades holding the same sub-client for it give the
    same outcome. *)
Theorem dispatch_uses_own_subclient (c c' : AwsClient) (k : ClientCall) :
  same_subclient (call_service k) c c' -> fst (dispatch c k) = fst (dispatch c' k).
Proof.
  destruct k; simpl; unfold AssumeRole, GetCallerIdentity, GetFederationToken, ListBuckets,
    DeleteBucket, ListObjects, DeleteObjects, CreateAccessKey, DeleteAccessKey, ListAccessKeys,
    GetUser, CreateUser, ListUsers, AttachUserPolicy, on_sts, on_s3, on_iam; simpl;
    intros H; rewrite H; reflexivity.
Qed.

Lemma dispatch_uses_own_subclient_witness :
  fst (dispatch {| iamClient := None; stsClient := Some mock_sts; s3Client := None |} (CAssumeRole None)) =
  fst (dispatch (client_of_session env_ok 1) (CAssumeRole None)).
Proof. apply dispatch_uses_own_subclient. reflexivity. Defined.

(** A call whose service's sub-client is nil (as in a zero [AwsClient])
    panics with a nil dereference. *)
Theorem dispatch_nil_subclient_panics (c : AwsClient) (k : ClientCall) :
  subclient_nil (call_service k) c -> fst (dispatch c k) = CallPanicked nil_deref.
Proof.
  destruct k; simpl; unfold AssumeRole, GetCallerIdentity, GetFederationToken, ListBuckets,
    DeleteBucket, ListObjects, DeleteObjects, CreateAccessKey, DeleteAccessKey, ListAccessKeys,
    GetUser, CreateUser, ListUsers, AttachUserPolicy, on_sts, on_s3, on_iam; simpl;
    intros H; rewrite H; reflexivity.
Qed.

Lemma dispatch_nil_subclient_panics_witness :
  fst (dispatch {| iamClient := None; stsClient := Some mock_sts; s3Client := Some mock_s3 |}
                (CGetUser None)) = CallPanicked nil_deref.
Proof. apply dispatch_nil_subclient_panics. reflexivity. Defined.



